(** * Conversation session controller of the chat client (App.jsx)

    A shallow embedding of the state-carrying part of the [App] component:
    the seven [useState] cells, the event handlers [sendMessage],
    [clearChat], [checkHealth], the settings sliders, and the text that the
    [catch] block of [sendMessage] builds from an axios error.

    Conventions of the embedding.
    - The component state is a record; a handler is a function from the
      state it is invoked on to the next state and the effects it issues
      (HTTP requests, console output).
    - An [async] handler is cut at its [await]: the part before it runs when
      the event fires, the part after it runs when the promise settles, on
      whatever the state is by then.  The code after an [await] touches the
      state only through functional updaters ([prev => ...]) and constant
      setters, so it reads nothing stale.
    - A handler reads the state of the render that created it.  The
      handlers [sendMessage], [clearChat] and the sliders are given on the
      state of the latest render; [sendMessage_in], [clearChat_in] and
      [step_in] take the render and the state apart, for events handled
      before the component has re-rendered.
    - What the environment decides is an argument: the value of
      [Date.now()], the answer to [confirm(...)], the way a request settles.
    - A JS string is a [string] whose characters are code units below 256.
    - A JS number is an IEEE 754 double, here a primitive [float]. *)

From Stdlib Require Import String Ascii List Bool ZArith Lia.
From Stdlib Require Import DecimalString DecimalZ PrimFloat.
Import ListNotations.

Local Open Scope string_scope.
Local Open Scope list_scope.

(** ** Data model *)

(** [role: 'user' | 'assistant' | 'error'] *)
Inductive Role : Type :=
| role_user
| role_assistant
| role_error.

(** A message object.  [modelName] is [None] when the object literal has no
    such property (user and error messages) or the reply carried none. *)
Record Message : Type := mkMessage {
  role : Role;
  content : string;
  modelName : option string
}.

(** [useState({ maxLength: 512, temperature: 0.7, topP: 0.9 })] *)
Record Settings : Type := mkSettings {
  maxLength : float;
  temperature : float;
  topP : float
}.

(** The [useState] cells of [App], under the names the source gives them. *)
Record State : Type := mkState {
  messages : list Message;
  input : string;
  isLoading : bool;
  sessionId : string;
  showSettings : bool;
  settings : Settings;
  error : option string
}.

(** Body of a successful [POST /api/chat]: [response.data]. *)
Record ChatData : Type := mkChatData {
  data_response : string;
  data_modelName : option string
}.

(** What the [catch] block inspects of the rejected value:
    [err.code], [err.response?.status], [err.response?.data?.message]. *)
Record ErrorData : Type := mkErrorData {
  message : option string
}.

Record ErrorResponse : Type := mkErrorResponse {
  status : Z;
  data : option ErrorData
}.

Record AxiosError : Type := mkAxiosError {
  code : option string;
  response : option ErrorResponse
}.

(** How an awaited request settles. *)
Inductive Settled (A : Type) : Type :=
| Fulfilled (a : A)
| Rejected (err : AxiosError).

Arguments Fulfilled {A} a.
Arguments Rejected {A} err.

(** Payload of [axios.post(`${API_URL}/api/chat`, {...}, { timeout: 60000 })]. *)
Record ChatRequest : Type := mkChatRequest {
  req_message : string;
  req_sessionId : string;
  req_options : Settings;
  req_timeout : Z
}.

(** Effects a handler issues; the URL is relative to [API_URL]. *)
Inductive Effect : Type :=
| HttpGet (path : string)
| HttpPost (path : string) (body : ChatRequest)
| HttpDelete (path : string)
| ConsoleLog (label : string)
| ConsoleError (label : string).

Definition is_http (e : Effect) : bool :=
  match e with
  | HttpGet _ | HttpPost _ _ | HttpDelete _ => true
  | ConsoleLog _ | ConsoleError _ => false
  end.

(** ** Session identity *)

(** Decimal rendering of an integer inside a template literal. *)
Definition string_of_Z (z : Z) : string :=
  NilEmpty.string_of_int (Z.to_int z).

(** [`session_${Date.now()}`], with [now] the value of [Date.now()]. *)
Definition newSessionId (now : Z) : string :=
  "session_" ++ string_of_Z now.

(** ** State at mount *)

(** 0.7 and 0.9 denote the nearest doubles, as they do in JS. *)
Set Warnings "-inexact-float".

Definition defaultSettings : Settings :=
  {| maxLength := 512%float; temperature := 0.7%float; topP := 0.9%float |}.

Definition init (now : Z) : State :=
  {| messages := [];
     input := "";
     isLoading := false;
     sessionId := newSessionId now;
     showSettings := false;
     settings := defaultSettings;
     error := None |}.

(** ** Strings *)

(** The code units below 256 that [String.prototype.trim] strips:
    TAB, LF, VT, FF, CR, SPACE and NO-BREAK SPACE. *)
Definition isWhiteSpace (c : ascii) : bool :=
  let n := N_of_ascii c in
  ((9 <=? n) && (n <=? 13) || (n =? 32) || (n =? 160))%N.

Fixpoint trimStart (s : string) : string :=
  match s with
  | EmptyString => EmptyString
  | String c rest => if isWhiteSpace c then trimStart rest else s
  end.

Fixpoint trimEnd (s : string) : string :=
  match s with
  | EmptyString => EmptyString
  | String c rest =>
      match trimEnd rest with
      | EmptyString => if isWhiteSpace c then EmptyString else String c EmptyString
      | kept => String c kept
      end
  end.

(** [s.trim()] *)
Definition trim (s : string) : string := trimEnd (trimStart s).

(** Truthiness of a string: every string but the empty one. *)
Definition truthy (s : string) : bool :=
  match s with
  | EmptyString => false
  | String _ _ => true
  end.

(** ** The text built by the [catch] block of [sendMessage] *)

(** [err.code === 'ECONNABORTED'] *)
Definition code_is (err : AxiosError) (c : string) : bool :=
  match code err with
  | Some c' => String.eqb c' c
  | None => false
  end.

(** [err.response?.status === 429] *)
Definition status_is (err : AxiosError) (n : Z) : bool :=
  match response err with
  | Some r => Z.eqb (status r) n
  | None => false
  end.

(** [err.response?.data?.message] *)
Definition response_data_message (err : AxiosError) : option string :=
  match response err with
  | Some r =>
      match data r with
      | Some d => message d
      | None => None
      end
  | None => None
  end.

(** Truthiness of an optional string: [undefined] and [''] are falsy. *)
Definition truthy_opt (o : option string) : bool :=
  match o with
  | Some m => truthy m
  | None => false
  end.

(** The string appended by [errorMessage += v]; the code reaches it only
    with a truthy [v]. *)
Definition text_of (o : option string) : string :=
  match o with
  | Some m => m
  | None => "undefined"
  end.

(** [!err.response] *)
Definition no_response (err : AxiosError) : bool :=
  match response err with
  | Some _ => false
  | None => true
  end.

(** The value of [errorMessage] when the [if] chain of the [catch] block
    has run. *)
Definition errorMessage (err : AxiosError) : string :=
  let errorMessage := "Failed to get response. " in
  if code_is err "ECONNABORTED" then
    errorMessage ++ "Request timed out. The model might be taking too long to respond."
  else if status_is err 429 then
    errorMessage ++ "Too many requests. Please wait a moment and try again."
  else if truthy_opt (response_data_message err) then
    errorMessage ++ text_of (response_data_message err)
  else if no_response err then
    errorMessage ++ "Cannot connect to server. Please check if the backend is running."
  else
    errorMessage ++ "Please try again.".

(** ** State setters *)

(** [setMessages(f)] with a functional updater, [setMessages(v)] being
    [setMessages(_ => v)]. *)
Definition setMessages (f : list Message -> list Message) (s : State) : State :=
  {| messages := f (messages s); input := input s; isLoading := isLoading s;
     sessionId := sessionId s; showSettings := showSettings s;
     settings := settings s; error := error s |}.

Definition setInput (v : string) (s : State) : State :=
  {| messages := messages s; input := v; isLoading := isLoading s;
     sessionId := sessionId s; showSettings := showSettings s;
     settings := settings s; error := error s |}.

Definition setIsLoading (v : bool) (s : State) : State :=
  {| messages := messages s; input := input s; isLoading := v;
     sessionId := sessionId s; showSettings := showSettings s;
     settings := settings s; error := error s |}.

Definition setSessionId (v : string) (s : State) : State :=
  {| messages := messages s; input := input s; isLoading := isLoading s;
     sessionId := v; showSettings := showSettings s;
     settings := settings s; error := error s |}.

Definition setShowSettings (v : bool) (s : State) : State :=
  {| messages := messages s; input := input s; isLoading := isLoading s;
     sessionId := sessionId s; showSettings := v;
     settings := settings s; error := error s |}.

Definition setSettings (v : Settings) (s : State) : State :=
  {| messages := messages s; input := input s; isLoading := isLoading s;
     sessionId := sessionId s; showSettings := showSettings s;
     settings := v; error := error s |}.

Definition setError (v : option string) (s : State) : State :=
  {| messages := messages s; input := input s; isLoading := isLoading s;
     sessionId := sessionId s; showSettings := showSettings s;
     settings := settings s; error := v |}.

(** ** Handlers *)

(** A handler step: the next state and the effects issued, in order. *)
Definition Step : Type := (State * list Effect)%type.

(** [checkHealth], up to its [await]. *)
Definition checkHealth (s : State) : Step :=
  (s, [HttpGet "/api/health"]).

(** [checkHealth], from its [await] on. *)
Definition checkHealth_settled (r : Settled unit) (s : State) : Step :=
  match r with
  | Fulfilled _ => (setError None s, [ConsoleLog "Health check:"])
  | Rejected _ =>
      (setError
         (Some "Unable to connect to server. Please check if the backend is running.")
         s,
       [ConsoleError "Health check failed:"])
  end.

(** [sendMessage], up to its [await]: the guard, the optimistic append and
    the dispatch of the request. *)
Definition sendMessage (s : State) : Step :=
  if negb (truthy (trim (input s))) || isLoading s then (s, [])
  else
    let userMessage := trim (input s) in
    let s1 := setInput "" s in
    let s2 := setError None s1 in
    let s3 :=
      setMessages
        (fun prev => prev ++ [{| role := role_user; content := userMessage;
                                 modelName := None |}])
        s2 in
    let s4 := setIsLoading true s3 in
    (s4,
     [HttpPost "/api/chat"
        {| req_message := userMessage; req_sessionId := sessionId s;
           req_options := settings s; req_timeout := 60000 |}]).

(** [sendMessage], from its [await] on: the rest of [try], or [catch],
    then [finally]. *)
Definition sendMessage_settled (r : Settled ChatData) (s : State) : Step :=
  let '(s1, out) :=
    match r with
    | Fulfilled d =>
        (setMessages
           (fun prev => prev ++ [{| role := role_assistant;
                                    content := data_response d;
                                    modelName := data_modelName d |}])
           s,
         [])
    | Rejected err =>
        let errorMessage := errorMessage err in
        let s' := setError (Some errorMessage) s in
        (setMessages
           (fun prev => prev ++ [{| role := role_error; content := errorMessage;
                                    modelName := None |}])
           s',
         [ConsoleError "Error:"])
    end in
  (setIsLoading false s1, out).

(** [clearChat], up to its [await]; [confirmed] is the answer to
    [confirm('Clear all messages?')]. *)
Definition clearChat (confirmed : bool) (s : State) : Step :=
  if confirmed then (s, [HttpDelete ("/api/chat/" ++ sessionId s)])
  else (s, []).

(** [clearChat], from its [await] on; [now] is what [Date.now()] returns
    if it is reached. *)
Definition clearChat_settled (r : Settled unit) (now : Z) (s : State) : Step :=
  match r with
  | Fulfilled _ =>
      let s1 := setMessages (fun _ => []) s in
      let s2 := setSessionId (newSessionId now) s1 in
      (setError None s2, [])
  | Rejected _ => (s, [ConsoleError "Error clearing chat:"])
  end.

(** A handler run to its end with nothing in between: if the first part
    dispatched a request, the second part runs on the state it left. *)
Definition and_then (first : Step) (rest : State -> Step) : Step :=
  let '(s1, out1) := first in
  if existsb is_http out1 then
    let '(s2, out2) := rest s1 in (s2, out1 ++ out2)
  else (s1, out1).

(** One whole [sendMessage] whose request settles as [r]. *)
Definition send (r : Settled ChatData) (s : State) : Step :=
  and_then (sendMessage s) (sendMessage_settled r).

(** One whole [clearChat] whose request, if any, settles as [r]. *)
Definition clear (confirmed : bool) (r : Settled unit) (now : Z) (s : State) : Step :=
  and_then (clearChat confirmed s) (clearChat_settled r now).

(** ** The sliders of the settings panel *)

Section Controller.

(** The global functions [parseInt] and [parseFloat], from the text of a
    range input ([e.target.value]) to a number. *)
Variable parseInt : string -> float.
Variable parseFloat : string -> float.

(** [onChange={(e) => setSettings({...settings, maxLength: parseInt(e.target.value)})}] *)
Definition onChange_maxLength (value : string) (s : State) : Step :=
  (setSettings
     {| maxLength := parseInt value;
        temperature := temperature (settings s);
        topP := topP (settings s) |} s,
   []).

(** [onChange={(e) => setSettings({...settings, temperature: parseFloat(e.target.value)})}] *)
Definition onChange_temperature (value : string) (s : State) : Step :=
  (setSettings
     {| maxLength := maxLength (settings s);
        temperature := parseFloat value;
        topP := topP (settings s) |} s,
   []).

(** [onChange={(e) => setSettings({...settings, topP: parseFloat(e.target.value)})}] *)
Definition onChange_topP (value : string) (s : State) : Step :=
  (setSettings
     {| maxLength := maxLength (settings s);
        temperature := temperature (settings s);
        topP := parseFloat value |} s,
   []).

(** A patch of the settings: for each slider, the text it is moved to, or
    [None] when it is left alone. *)
Record Patch : Type := mkPatch {
  patch_maxLength : option string;
  patch_temperature : option string;
  patch_topP : option string
}.

Definition on_some (h : string -> State -> Step) (o : option string) (s : State) : State :=
  match o with
  | Some value => fst (h value s)
  | None => s
  end.

(** The change events of a patch, one per touched slider, each handled on
    the state the one before it left. *)
Definition set_patch (p : Patch) (s : State) : State :=
  let s1 := on_some onChange_maxLength (patch_maxLength p) s in
  let s2 := on_some onChange_temperature (patch_temperature p) s1 in
  on_some onChange_topP (patch_topP p) s2.

(** What the panel and the next request read. *)
Definition get_settings (s : State) : Settings := settings s.

(** ** Events *)

(** Everything that runs code of the component after the first render. *)
Inductive Event : Type :=
| Mounted                                      (* useEffect(..., []) *)
| HealthSettled (r : Settled unit)
| InputSet (value : string)                    (* setInput(...) from a view *)
| Submitted                                    (* onSubmit={sendMessage} *)
| ChatSettled (r : Settled ChatData)
| ClearClicked (confirmed : bool)              (* onClick={clearChat} *)
| DeleteSettled (r : Settled unit) (now : Z)
| SettingsToggled                              (* setShowSettings(!showSettings) *)
| SettingsClosed                               (* setShowSettings(false) *)
| ErrorDismissed                               (* setError(null) *)
| MaxLengthChanged (value : string)
| TemperatureChanged (value : string)
| TopPChanged (value : string).

Definition step (ev : Event) (s : State) : Step :=
  match ev with
  | Mounted => checkHealth s
  | HealthSettled r => checkHealth_settled r s
  | InputSet value => (setInput value s, [])
  | Submitted => sendMessage s
  | ChatSettled r => sendMessage_settled r s
  | ClearClicked confirmed => clearChat confirmed s
  | DeleteSettled r now => clearChat_settled r now s
  | SettingsToggled => (setShowSettings (negb (showSettings s)) s, [])
  | SettingsClosed => (setShowSettings false s, [])
  | ErrorDismissed => (setError None s, [])
  | MaxLengthChanged value => onChange_maxLength value s
  | TemperatureChanged value => onChange_temperature value s
  | TopPChanged value => onChange_topP value s
  end.

(** The state after a sequence of events, oldest first. *)
Fixpoint run (evs : list Event) (s : State) : State :=
  match evs with
  | [] => s
  | ev :: rest => run rest (fst (step ev s))
  end.

(** The one event that empties the conversation. *)
Definition resets (ev : Event) : bool :=
  match ev with
  | DeleteSettled (Fulfilled _) _ => true
  | _ => false
  end.

(** The clock reading behind the current session id: the one of the last
    fulfilled clear, or else the one at mount. *)
Fixpoint last_clock (evs : list Event) (mounted_at : Z) : Z :=
  match evs with
  | [] => mounted_at
  | DeleteSettled (Fulfilled _) now :: rest => last_clock rest now
  | _ :: rest => last_clock rest mounted_at
  end.

End Controller.

(** ** The error classifier as the specification words it *)

(** The five outcome categories. *)
Inductive Outcome : Type :=
| timeout
| rateLimited
| serverMessage (text : string)
| unreachable
| unknown.

(** The user-facing string of each category. *)
Definition classify_spec (o : Outcome) : string :=
  match o with
  | timeout => "Request timed out. The model might be taking too long to respond."
  | rateLimited => "Too many requests. Please wait a moment and try again."
  | serverMessage text => text
  | unreachable => "Cannot connect to server. Please check if the backend is running."
  | unknown => "Please try again."
  end.

Definition send_failure_prefix : string := "Failed to get response. ".

(** The category of a rejected request, by the tests the [catch] block
    makes, in its order. *)
Definition outcome_of (err : AxiosError) : Outcome :=
  if code_is err "ECONNABORTED" then timeout
  else if status_is err 429 then rateLimited
  else if truthy_opt (response_data_message err) then
    serverMessage (text_of (response_data_message err))
  else if no_response err then unreachable
  else unknown.

(** A rejected request of each category. *)
Definition error_of (o : Outcome) : AxiosError :=
  match o with
  | timeout => {| code := Some "ECONNABORTED"; response := None |}
  | rateLimited =>
      {| code := Some "ERR_BAD_REQUEST";
         response := Some {| status := 429; data := None |} |}
  | serverMessage text =>
      {| code := Some "ERR_BAD_RESPONSE";
         response := Some {| status := 500;
                             data := Some {| message := Some text |} |} |}
  | unreachable => {| code := Some "ERR_NETWORK"; response := None |}
  | unknown =>
      {| code := Some "ERR_BAD_RESPONSE";
         response := Some {| status := 500; data := None |} |}
  end.

(** ** What the view derives from the state *)

(** [disabled={isLoading || !input.trim()}] of the submit button. *)
Definition submit_disabled (s : State) : bool :=
  isLoading s || negb (truthy (trim (input s))).

(** [{error && (<div> ... {error} ... </div>)}]: the text on the banner,
    if the banner is rendered. *)
Definition error_banner (s : State) : option string :=
  if truthy_opt (error s) then error s else None.

(** [messages.length === 0 ? (welcome) : (conversation)] *)
Definition welcome_shown (s : State) : bool :=
  Nat.eqb (length (messages s)) 0.

(** [{isLoading && (...)}] of the typing indicator, which sits in the
    conversation branch of the test above. *)
Definition typing_indicator_shown (s : State) : bool :=
  negb (welcome_shown s) && isLoading s.

(** The model name under a message:
    [message.role === 'assistant' ? (... {message.modelName && (...)}) : (...)]. *)
Definition model_tag (m : Message) : option string :=
  match role m with
  | role_assistant => if truthy_opt (modelName m) then modelName m else None
  | _ => None
  end.

(** The texts of the suggestion buttons of the welcome screen, each wired
    to [setInput(suggestion)]. *)
Definition suggestions : list string :=
  ["Draft a contract"; "Explain my rights"; "Review legal document"].

(** ** Shapes of texts and conversations *)

Definition starts_with_space (s : string) : bool :=
  match s with
  | EmptyString => false
  | String c _ => isWhiteSpace c
  end.

Fixpoint ends_with_space (s : string) : bool :=
  match s with
  | EmptyString => false
  | String c EmptyString => isWhiteSpace c
  | String _ rest => ends_with_space rest
  end.

(** A text made of white space only. *)
Fixpoint all_space (s : string) : bool :=
  match s with
  | EmptyString => true
  | String c rest => isWhiteSpace c && all_space rest
  end.

Definition is_none (o : option string) : bool :=
  match o with
  | None => true
  | Some _ => false
  end.

(** What the handlers put in a message of each role: a user message holds
    a trimmed, non-empty text, an error message a text that starts with
    the prefix of the [catch] block, and neither names a model. *)
Definition well_formed (m : Message) : bool :=
  match role m with
  | role_user =>
      truthy (content m)
      && negb (starts_with_space (content m))
      && negb (ends_with_space (content m))
      && is_none (modelName m)
  | role_error =>
      String.prefix "Failed to get response. " (content m)
      && is_none (modelName m)
  | role_assistant => true
  end.

Definition is_user (m : Message) : bool :=
  match role m with
  | role_user => true
  | _ => false
  end.

(** A conversation read as turns, a user message then its reply:
    [Some false] when every turn is complete, [Some true] when the last
    user message has no reply yet, [None] when it is not made of turns. *)
Fixpoint awaiting_reply (ms : list Message) : option bool :=
  match ms with
  | [] => Some false
  | u :: rest =>
      if is_user u then
        match rest with
        | [] => Some true
        | r :: rest' => if is_user r then None else awaiting_reply rest'
        end
      else None
  end.

(** ** Sequences of events with their requests accounted for *)

Definition is_post (e : Effect) : bool :=
  match e with
  | HttpPost _ _ => true
  | _ => false
  end.

(** The events that may issue a request: the mount, a submit and a
    confirmed click on the clear button. *)
Definition may_request (ev : Event) : bool :=
  match ev with
  | Mounted | Submitted | ClearClicked true => true
  | _ => false
  end.

Section Traces.

Variable parseInt : string -> float.
Variable parseFloat : string -> float.

(** The effects of a sequence of events, oldest first. *)
Fixpoint run_effects (evs : list Event) (s : State) : list Effect :=
  match evs with
  | [] => []
  | ev :: rest =>
      snd (step parseInt parseFloat ev s)
      ++ run_effects rest (fst (step parseInt parseFloat ev s))
  end.

(** *** Handlers on a render that may be stale

    A handler is a closure of the render that created it.  What it reads
    of the state ([input], [isLoading], [sessionId], [settings],
    [showSettings]) it reads from that render, [rendered]; what it sets
    is queued, and lands on the state as it is by then, [current].  The
    two are the same state when the component has re-rendered since the
    last update, and [step rendered] is [step_in] at [rendered] twice. *)

(** [sendMessage] up to its [await], as a closure of [rendered]. *)
Definition sendMessage_in (rendered current : State) : Step :=
  if negb (truthy (trim (input rendered))) || isLoading rendered
  then (current, [])
  else
    let userMessage := trim (input rendered) in
    let s1 := setInput "" current in
    let s2 := setError None s1 in
    let s3 :=
      setMessages
        (fun prev => prev ++ [{| role := role_user; content := userMessage;
                                 modelName := None |}])
        s2 in
    let s4 := setIsLoading true s3 in
    (s4,
     [HttpPost "/api/chat"
        {| req_message := userMessage; req_sessionId := sessionId rendered;
           req_options := settings rendered; req_timeout := 60000 |}]).

(** [clearChat] up to its [await], as a closure of [rendered]. *)
Definition clearChat_in (confirmed : bool) (rendered current : State) : Step :=
  if confirmed
  then (current, [HttpDelete ("/api/chat/" ++ sessionId rendered)])
  else (current, []).

(** An event handled by the closures of [rendered].  The code after an
    [await] and the constant setters read nothing of the render. *)
Definition step_in (rendered : State) (ev : Event) (current : State) : Step :=
  match ev with
  | Mounted => checkHealth current
  | HealthSettled r => checkHealth_settled r current
  | InputSet value => (setInput value current, [])
  | Submitted => sendMessage_in rendered current
  | ChatSettled r => sendMessage_settled r current
  | ClearClicked confirmed => clearChat_in confirmed rendered current
  | DeleteSettled r now => clearChat_settled r now current
  | SettingsToggled =>
      (setShowSettings (negb (showSettings rendered)) current, [])
  | SettingsClosed => (setShowSettings false current, [])
  | ErrorDismissed => (setError None current, [])
  | MaxLengthChanged value =>
      (setSettings
         {| maxLength := parseInt value;
            temperature := temperature (settings rendered);
            topP := topP (settings rendered) |} current,
       [])
  | TemperatureChanged value =>
      (setSettings
         {| maxLength := maxLength (settings rendered);
            temperature := parseFloat value;
            topP := topP (settings rendered) |} current,
       [])
  | TopPChanged value =>
      (setSettings
         {| maxLength := maxLength (settings rendered);
            temperature := temperature (settings rendered);
            topP := parseFloat value |} current,
       [])
  end.

(** What happens to the component: it re-renders, or an event is handled
    by the closures of the last render. *)
Inductive Item : Type :=
| Render
| Handle (ev : Event).

(** Every submit is handled right after a re-render; [after_render]
    tells whether the item before the list was a [Render]. *)
Fixpoint fresh_submits (after_render : bool) (items : list Item) : bool :=
  match items with
  | [] => true
  | Render :: rest => fresh_submits true rest
  | Handle Submitted :: rest => after_render && fresh_submits false rest
  | Handle _ :: rest => fresh_submits false rest
  end.

(** A fulfilled clear among the items. *)
Definition item_resets (item : Item) : bool :=
  match item with
  | Render => false
  | Handle ev => resets ev
  end.

(** The last render, the state and the number of chat requests in flight
    after a sequence of items: a [POST] that is dispatched adds one, a
    [ChatSettled] takes one away, and the sequence is refused ([None])
    when a [ChatSettled] comes with none in flight. *)
Fixpoint run_items (items : list Item) (rendered current : State)
    (in_flight : nat) : option (State * State * nat) :=
  match items with
  | [] => Some (rendered, current, in_flight)
  | Render :: rest => run_items rest current current in_flight
  | Handle ev :: rest =>
      let s' := fst (step_in rendered ev current) in
      let posted :=
        length (filter is_post (snd (step_in rendered ev current))) in
      match ev with
      | ChatSettled _ =>
          match in_flight with
          | O => None
          | S n => run_items rest rendered s' n
          end
      | _ => run_items rest rendered s' (in_flight + posted)
      end
  end.

End Traces.

(** ** Sample data *)

Definition reply_hi : ChatData :=
  {| data_response := "Hi there"; data_modelName := Some "legal-v1" |}.

Definition typed_hello : State := setInput "Hello" (init 1730520000000).

(** Scenario D: a conversation of three messages, nothing in flight. *)
Definition three_messages : State :=
  {| messages :=
       [ {| role := role_user; content := "Hello"; modelName := None |};
         {| role := role_assistant; content := "Hi there";
            modelName := Some "legal-v1" |};
         {| role := role_user; content := "Explain my rights";
            modelName := None |} ];
     input := "";
     isLoading := false;
     sessionId := newSessionId 1730520000000;
     showSettings := false;
     settings := defaultSettings;
     error := None |}.

(** A state with a request in flight and a text typed in the meantime. *)
Definition busy_hello : State := setInput "Hello" (setIsLoading true three_messages).

(** Two sends, each submit after a re-render; a second submit while the
    first is in flight and two slider changes on a stale render. *)
Definition two_sends : list Item :=
  [ Handle Mounted; Handle (InputSet "Hello"); Render;
    Handle Submitted; Handle (MaxLengthChanged "1024");
    Handle (TopPChanged "0.5"); Render; Handle Submitted;
    Handle (ClearClicked false);
    Handle (ChatSettled (Fulfilled reply_hi));
    Handle (InputSet "Hello again"); Render; Handle Submitted ].

(** * Properties *)

Lemma string_of_Z_inj (a b : Z) : string_of_Z a = string_of_Z b -> a = b.
Proof.
  unfold string_of_Z. intros H.
  apply DecimalZ.to_int_inj.
  assert (E : Some (Z.to_int a) = Some (Z.to_int b)).
  { rewrite <- (NilEmpty.isi (Z.to_int a)), <- (NilEmpty.isi (Z.to_int b)).
    now rewrite H. }
  now injection E.
Qed.

Example newSessionId_sample :
  newSessionId 1730520000000 = "session_1730520000000".
Proof. reflexivity. Qed.

(** ** Sample runs *)

Example trim_sample : trim "  Hello world	 " = "Hello world".
Proof. reflexivity. Qed.

Example trim_blank : trim "   " = "".
Proof. reflexivity. Qed.

(** Scenario A: "Hello", answered by "Hi there" from model legal-v1. *)
Example scenario_A :
  let s := fst (send (Fulfilled reply_hi) typed_hello) in
  messages s =
    [ {| role := role_user; content := "Hello"; modelName := None |};
      {| role := role_assistant; content := "Hi there";
         modelName := Some "legal-v1" |} ]
  /\ isLoading s = false.
Proof. split; reflexivity. Qed.

(** Scenario B: "Hello", and the request runs into the 60 s timeout. *)
Example scenario_B :
  let s := fst (send (Rejected (error_of timeout)) typed_hello) in
  messages s =
    [ {| role := role_user; content := "Hello"; modelName := None |};
      {| role := role_error;
         content := "Failed to get response. Request timed out. The model might be taking too long to respond.";
         modelName := None |} ].
Proof. reflexivity. Qed.

(** ** Helper lemmas *)

Lemma truthy_true_iff (s : string) : truthy s = true <-> s <> "".
Proof.
  destruct s; simpl; split; intros H; easy.
Qed.

Lemma truthy_false_iff (s : string) : truthy s = false <-> s = "".
Proof.
  destruct s; simpl; split; intros H; easy.
Qed.

Lemma trimStart_no_leading_space (s : string) (c : ascii) (rest : string) :
  trimStart s = String c rest -> isWhiteSpace c = false.
Proof.
  induction s as [|a s IH]; simpl; [easy|].
  destruct (isWhiteSpace a) eqn:Ea; [exact IH|].
  now intros [= <- _].
Qed.

Lemma trimEnd_head (s : string) (c : ascii) (rest : string) :
  trimEnd s = String c rest -> exists rest', s = String c rest'.
Proof.
  destruct s as [|a s]; simpl; [easy|].
  destruct (trimEnd s); [destruct (isWhiteSpace a)|]; intros [= <- _]; eauto.
Qed.

(** A trimmed text never starts with white space. *)
Lemma trim_no_leading_space (s : string) (c : ascii) (rest : string) :
  trim s = String c rest -> isWhiteSpace c = false.
Proof.
  unfold trim. intros H.
  destruct (trimEnd_head _ _ _ H) as [rest' E].
  exact (trimStart_no_leading_space _ _ _ E).
Qed.

Lemma sendMessage_settled_messages (r : Settled ChatData) (s : State) :
  exists m, messages (fst (sendMessage_settled r s)) = messages s ++ [m].
Proof.
  destruct r; simpl; eauto.
Qed.

(** ** Clearing the conversation *)

(** C9. When the [DELETE /api/chat/{sessionId}] request is rejected,
    [clearChat] changes no cell of the state: the three setters sit after
    the [await] inside [try], and [catch] only writes to the console.
    This holds for the continuation alone, on whatever state it finds, and
    for the whole handler. *)
Theorem clearChat_rejected_keeps_state :
  forall (err : AxiosError) (now : Z) (s : State),
    clearChat_settled (Rejected err) now s
      = (s, [ConsoleError "Error clearing chat:"])
    /\ fst (clear true (Rejected err) now s) = s
    /\ messages (fst (clear true (Rejected err) now s)) = messages s
    /\ sessionId (fst (clear true (Rejected err) now s)) = sessionId s
    /\ error (fst (clear true (Rejected err) now s)) = error s.
Proof.
  intros err now s.
  assert (E : fst (clear true (Rejected err) now s) = s) by reflexivity.
  rewrite E. repeat split; reflexivity.
Qed.

(** C10. [clearChat] is gated on [confirm('Clear all messages?')]: when the
    answer is no, no request is issued and the state is the one before,
    cell for cell; a [clearChat] that changes the state or issues anything
    had the answer yes. *)
Theorem clearChat_declined_is_noop :
  forall (r : Settled unit) (now : Z) (s : State),
    clearChat false s = (s, [])
    /\ clear false r now s = (s, [])
    /\ forall confirmed : bool,
         confirmed = true \/ clear confirmed r now s = (s, []).
Proof.
  intros r now s. repeat split.
  intros [|]; [now left | now right].
Qed.

(** C1, as the code has it.  When the answer to the confirmation is yes and
    the [DELETE] request is fulfilled, the conversation is empty, the
    session id is [session_<Date.now()>] and the error is cleared, whatever
    the state and the clock reading; the new id differs from the one
    before whenever that one was made from another clock reading. *)
Theorem clear_fulfilled_resets :
  forall (now : Z) (s : State),
    let s' := fst (clear true (Fulfilled tt) now s) in
    messages s' = []
    /\ sessionId s' = newSessionId now
    /\ error s' = None
    /\ (forall t0 : Z,
          sessionId s = newSessionId t0 ->
          t0 <> now ->
          sessionId s' <> sessionId s).
Proof.
  intros now s. cbn.
  split; [reflexivity|].
  split; [reflexivity|].
  split; [reflexivity|].
  intros t0 Hid Hclock.
  rewrite Hid. unfold newSessionId. intros E.
  apply Hclock. symmetry.
  apply string_of_Z_inj.
  now injection E.
Qed.

Lemma clear_fulfilled_resets_witness :
  let s' := fst (clear true (Fulfilled tt) 1730520060000 three_messages) in
  messages s' = []
  /\ sessionId s' = newSessionId 1730520060000
  /\ error s' = None
  /\ sessionId s' <> sessionId three_messages.
Proof.
  destruct (clear_fulfilled_resets 1730520060000 three_messages)
    as (Hm & Hi & He & Hd).
  split; [exact Hm|].
  split; [exact Hi|].
  split; [exact He|].
  apply (Hd 1730520000000%Z).
  - reflexivity.
  - lia.
Defined.

(** C1 fails as stated, on either count: with the [DELETE] request rejected
    the three messages of scenario D stay, and with [Date.now()] equal to
    the reading the current id was made from, the id stays. *)
Lemma clear_not_unconditional :
  ~ (messages (fst (clear true (Rejected (error_of unreachable))
                      1730520060000 three_messages)) = [])
  /\ ~ (sessionId (fst (clear true (Fulfilled tt)
                          1730520000000 three_messages))
        <> sessionId three_messages).
Proof.
  split.
  - simpl. discriminate.
  - intros H. apply H. reflexivity.
Qed.

(** ** Session identity *)

Lemma step_sessionId (parseInt parseFloat : string -> float)
    (ev : Event) (s : State) :
  sessionId (fst (step parseInt parseFloat ev s))
  = if resets ev
    then newSessionId (last_clock [ev] 0)
    else sessionId s.
Proof.
  destruct ev as [ | r | v | | r | c | r now | | | | v | v | v ]; cbn;
    try reflexivity.
  - now destruct r.
  - unfold sendMessage.
    now destruct (negb (truthy (trim (input s))) || isLoading s).
  - now destruct r.
  - now destruct c.
  - now destruct r.
Qed.

(** Along any sequence of events, the session id is the one made from the
    reading of the last fulfilled clear, or of the mount. *)
Lemma run_sessionId (parseInt parseFloat : string -> float)
    (evs : list Event) (s : State) (t : Z) :
  sessionId s = newSessionId t ->
  sessionId (run parseInt parseFloat evs s) = newSessionId (last_clock evs t).
Proof.
  revert s t. induction evs as [|ev evs IH]; intros s t Hs; [exact Hs|].
  pose proof (step_sessionId parseInt parseFloat ev s) as E.
  destruct ev as [ | r | v | | r | c | [u|err] now | | | | v | v | v ];
    cbn [resets] in E; cbn [run last_clock]; apply IH;
    rewrite E; try exact Hs; reflexivity.
Qed.

(** C6, as the code has it.  The id at mount and the id after a fulfilled
    clear are [session_] followed by the decimal clock reading, so is the
    id after any sequence of events, and two such ids are equal exactly
    when the readings are. *)
Theorem newSessionId_distinct_iff_clock_distinct :
  forall (parseInt parseFloat : string -> float)
         (t0 now : Z) (s : State) (evs : list Event),
    sessionId (init t0) = newSessionId t0
    /\ sessionId (fst (clearChat_settled (Fulfilled tt) now s)) = newSessionId now
    /\ sessionId (run parseInt parseFloat evs (init t0))
       = newSessionId (last_clock evs t0)
    /\ (newSessionId t0 = newSessionId now <-> t0 = now).
Proof.
  intros parseInt parseFloat t0 now s evs.
  split; [reflexivity|].
  split; [reflexivity|].
  split; [now apply run_sessionId|].
  split.
  - unfold newSessionId. intros E.
    apply string_of_Z_inj. now injection E.
  - now intros ->.
Qed.

(** C6 fails as stated: a clear settled in the millisecond of the mount
    issues the id of the mount again. *)
Lemma sessionId_repeats_on_equal_clock :
  sessionId (fst (clear true (Fulfilled tt) 1730520000000 (init 1730520000000)))
  = sessionId (init 1730520000000).
Proof. reflexivity. Qed.

(** ** Sending a message *)

(** C2. [sendMessage] invoked while [isLoading] is true, or on an input
    that is empty once trimmed, returns at its guard: every cell of the
    state is the one before (messages, session id, error and loading flag
    among them) and nothing is issued, so no request either.  The same
    goes for the handler run to its end. *)
Theorem sendMessage_guard_is_noop :
  forall (r : Settled ChatData) (s : State),
    isLoading s = true \/ trim (input s) = "" ->
    sendMessage s = (s, [])
    /\ send r s = (s, [])
    /\ existsb is_http (snd (send r s)) = false.
Proof.
  intros r s Hguard.
  assert (E : sendMessage s = (s, [])).
  { unfold sendMessage.
    destruct Hguard as [Hbusy | Hblank].
    - rewrite Hbusy, orb_true_r. reflexivity.
    - rewrite Hblank. reflexivity. }
  unfold send. rewrite E. repeat split.
Qed.

Lemma sendMessage_guard_is_noop_witness :
  sendMessage busy_hello = (busy_hello, [])
  /\ send (Fulfilled reply_hi) busy_hello = (busy_hello, [])
  /\ existsb is_http (snd (send (Fulfilled reply_hi) busy_hello)) = false.
Proof.
  apply (sendMessage_guard_is_noop (Fulfilled reply_hi) busy_hello).
  left. reflexivity.
Defined.

(** C3. On an input that is not empty once trimmed, with nothing in
    flight, [sendMessage] appends one user message holding the trimmed
    text and raises [isLoading] before it dispatches its one request; when
    that request is fulfilled with [{ response, modelName }], one assistant
    message with that content and model name is appended after it and
    [isLoading] is false again. *)
Theorem sendMessage_fulfilled_appends_user_then_assistant :
  forall (d : ChatData) (s : State),
    trim (input s) <> "" ->
    isLoading s = false ->
    let userMessage :=
      {| role := role_user; content := trim (input s); modelName := None |} in
    let reply :=
      {| role := role_assistant; content := data_response d;
         modelName := data_modelName d |} in
    let s1 := fst (sendMessage s) in
    let s2 := fst (sendMessage_settled (Fulfilled d) s1) in
    messages s1 = messages s ++ [userMessage]
    /\ isLoading s1 = true
    /\ snd (sendMessage s)
       = [HttpPost "/api/chat"
            {| req_message := trim (input s); req_sessionId := sessionId s;
               req_options := settings s; req_timeout := 60000 |}]
    /\ messages s2 = messages s ++ [userMessage; reply]
    /\ isLoading s2 = false
    /\ fst (send (Fulfilled d) s) = s2.
Proof.
  intros d s Htext Hidle.
  assert (E : negb (truthy (trim (input s))) || isLoading s = false).
  { apply truthy_true_iff in Htext. now rewrite Htext, Hidle. }
  unfold send, sendMessage. rewrite E. cbn.
  rewrite <- app_assoc. repeat split.
Qed.

Lemma sendMessage_fulfilled_appends_user_then_assistant_witness :
  let s1 := fst (sendMessage typed_hello) in
  let s2 := fst (sendMessage_settled (Fulfilled reply_hi) s1) in
  messages s1
    = messages typed_hello
      ++ [{| role := role_user; content := trim (input typed_hello);
             modelName := None |}]
  /\ isLoading s1 = true
  /\ snd (sendMessage typed_hello)
     = [HttpPost "/api/chat"
          {| req_message := trim (input typed_hello);
             req_sessionId := sessionId typed_hello;
             req_options := settings typed_hello; req_timeout := 60000 |}]
  /\ messages s2
     = messages typed_hello
       ++ [{| role := role_user; content := trim (input typed_hello);
              modelName := None |};
           {| role := role_assistant; content := data_response reply_hi;
              modelName := data_modelName reply_hi |}]
  /\ isLoading s2 = false
  /\ fst (send (Fulfilled reply_hi) typed_hello) = s2.
Proof.
  apply (sendMessage_fulfilled_appends_user_then_assistant reply_hi typed_hello).
  - vm_compute. discriminate.
  - reflexivity.
Defined.

(** C4. When the request of a send is rejected (a timeout is a rejection
    with code ECONNABORTED), the continuation appends one error message
    whose content is the text of [errorMessage], sets [error] to the same
    text, lowers [isLoading], leaves the other cells alone and issues no
    request; a whole send issues at most one request, rejected or not. *)
Theorem sendMessage_rejected_appends_error :
  forall (err : AxiosError) (r : Settled ChatData) (s : State),
    let s' := fst (sendMessage_settled (Rejected err) s) in
    messages s'
      = messages s
        ++ [{| role := role_error; content := errorMessage err;
               modelName := None |}]
    /\ error s' = Some (errorMessage err)
    /\ isLoading s' = false
    /\ (sessionId s' = sessionId s /\ settings s' = settings s
        /\ input s' = input s)
    /\ existsb is_http (snd (sendMessage_settled (Rejected err) s)) = false
    /\ length (filter is_http (snd (send r s))) <= 1.
Proof.
  intros err r s. cbn. repeat split.
  unfold send, sendMessage.
  destruct (negb (truthy (trim (input s))) || isLoading s); cbn.
  - lia.
  - destruct r; cbn; lia.
Qed.

(** ** The error classifier *)

Lemma outcome_of_text_nonempty (err : AxiosError) :
  outcome_of err <> serverMessage "".
Proof.
  unfold outcome_of.
  destruct (code_is err "ECONNABORTED"); [discriminate|].
  destruct (status_is err 429); [discriminate|].
  destruct (response_data_message err) as [m|]; simpl.
  - destruct m; simpl; [|discriminate].
    destruct (no_response err); discriminate.
  - destruct (no_response err); discriminate.
Qed.

Lemma outcome_of_error_of (o : Outcome) :
  o = serverMessage "" \/ outcome_of (error_of o) = o.
Proof.
  destruct o as [ | | text | | ]; try (right; reflexivity).
  destruct text; [left | right]; reflexivity.
Qed.

(** C5, as the code has it.  The text of the [catch] block is a function
    of the rejected value alone: the fixed prefix followed by the string
    that the category of the rejection has in the table of the
    specification, the category being the one the tests of the block
    select, in their order.  A server text that is not empty is taken
    verbatim; an empty one is no server text to the block, which tests it
    for truthiness, and the rejection that carries it is of the category
    unknown.  Each category, an empty server text apart, is the category
    of some rejection and yields its string. *)
Theorem errorMessage_is_prefixed_classify :
  forall (err : AxiosError) (o : Outcome),
    errorMessage err
      = (send_failure_prefix ++ classify_spec (outcome_of err))%string
    /\ outcome_of err <> serverMessage ""
    /\ (o = serverMessage ""
        \/ (outcome_of (error_of o) = o
            /\ errorMessage (error_of o)
               = ("Failed to get response. " ++ classify_spec o)%string))
    /\ (outcome_of (error_of (serverMessage "")) = unknown
        /\ errorMessage (error_of (serverMessage ""))
           = ("Failed to get response. " ++ classify_spec unknown)%string).
Proof.
  intros err o.
  assert (R : forall e,
             errorMessage e
             = (send_failure_prefix ++ classify_spec (outcome_of e))%string).
  { intros e. unfold errorMessage, outcome_of, send_failure_prefix.
    destruct (code_is e "ECONNABORTED"); [reflexivity|].
    destruct (status_is e 429); [reflexivity|].
    destruct (truthy_opt (response_data_message e)); [reflexivity|].
    destruct (no_response e); reflexivity. }
  split; [apply R|].
  split; [apply outcome_of_text_nonempty|].
  split; [|split; reflexivity].
  destruct (outcome_of_error_of o) as [E | E]; [now left | right].
  split; [exact E|].
  rewrite R, E. reflexivity.
Qed.

(** C5 fails as stated: a rejection whose body carries the empty string
    as its message does not yield that text after the prefix, but the
    text of the category unknown. *)
Lemma empty_server_text_not_verbatim :
  errorMessage (error_of (serverMessage ""))
    = "Failed to get response. Please try again."
  /\ errorMessage (error_of (serverMessage ""))
     <> (send_failure_prefix ++ classify_spec (serverMessage ""))%string.
Proof.
  split; [reflexivity|].
  cbn. discriminate.
Qed.

(** ** Generation settings *)

(** C7.  After the change events of a patch, the settings read back are
    the former ones with each touched field replaced by the number parsed
    from its slider and each untouched field as it was; the handlers store
    what [parseInt] and [parseFloat] return, whatever it is, and touch no
    other cell.  At mount the settings are 512, 0.7 and 0.9. *)
Theorem set_patch_then_get_settings :
  forall (parseInt parseFloat : string -> float) (p : Patch) (s : State) (now : Z),
    get_settings (set_patch parseInt parseFloat p s)
      = {| maxLength :=
             match patch_maxLength p with
             | Some value => parseInt value
             | None => maxLength (get_settings s)
             end;
           temperature :=
             match patch_temperature p with
             | Some value => parseFloat value
             | None => temperature (get_settings s)
             end;
           topP :=
             match patch_topP p with
             | Some value => parseFloat value
             | None => topP (get_settings s)
             end |}
    /\ set_patch parseInt parseFloat p s
       = setSettings (get_settings (set_patch parseInt parseFloat p s)) s
    /\ get_settings (init now)
       = {| maxLength := 512%float; temperature := 0.7%float;
            topP := 0.9%float |}.
Proof.
  intros parseInt parseFloat [pm pt pp] [ms inp busy sid shown [m t tp] e] now.
  destruct pm, pt, pp; repeat split.
Qed.

(** ** The conversation store *)

Lemma step_messages (parseInt parseFloat : string -> float)
    (ev : Event) (s : State) :
  let s' := fst (step parseInt parseFloat ev s) in
  messages s' = messages s
  \/ (exists m, messages s' = messages s ++ [m])
  \/ (resets ev = true /\ messages s' = []).
Proof.
  destruct ev as [ | r | v | | r | c | r now | | | | v | v | v ]; cbn;
    try (left; reflexivity).
  - destruct r; left; reflexivity.
  - unfold sendMessage.
    destruct (negb (truthy (trim (input s))) || isLoading s); cbn;
      [left; reflexivity | right; left; eauto].
  - right; left. apply sendMessage_settled_messages.
  - destruct c; left; reflexivity.
  - destruct r; [right; right; split; reflexivity | left; reflexivity].
Qed.

Lemma run_messages (parseInt parseFloat : string -> float)
    (evs : list Event) (s : State) :
  exists suffix,
    messages (run parseInt parseFloat evs s)
    = (if existsb resets evs then [] else messages s) ++ suffix.
Proof.
  revert s. induction evs as [|ev evs IH]; intros s; simpl.
  - exists []. now rewrite app_nil_r.
  - destruct (IH (fst (step parseInt parseFloat ev s))) as [suffix E].
    rewrite E. clear E IH.
    destruct (existsb resets evs); [rewrite orb_true_r; eauto|].
    rewrite orb_false_r.
    destruct (step_messages parseInt parseFloat ev s) as [E | [[m E] | [R E]]];
      cbv zeta in *; rewrite E.
    + destruct (resets ev) eqn:R; [|eauto].
      exists (messages s ++ suffix). reflexivity.
    + destruct (resets ev) eqn:R.
      * exists ((messages s ++ [m]) ++ suffix). reflexivity.
      * exists (m :: suffix). now rewrite <- app_assoc.
    + rewrite R. eauto.
Qed.

(** C8.  Every event leaves the messages as they are, appends one message
    at the end, or, for a fulfilled clear only, replaces them by the empty
    list; hence after any sequence of events without a fulfilled clear the
    messages there were are still there, at their places and unchanged,
    followed by what was appended. *)
Theorem messages_append_only :
  forall (parseInt parseFloat : string -> float)
         (ev : Event) (evs : list Event) (s : State),
    (let s' := fst (step parseInt parseFloat ev s) in
     messages s' = messages s
     \/ (exists m, messages s' = messages s ++ [m])
     \/ (resets ev = true /\ messages s' = []))
    /\ (exists suffix,
          messages (run parseInt parseFloat evs s)
          = (if existsb resets evs then [] else messages s) ++ suffix)
    /\ (existsb resets evs = true
        \/ forall (i : nat) (m : Message),
             nth_error (messages s) i = Some m ->
             nth_error (messages (run parseInt parseFloat evs s)) i = Some m).
Proof.
  intros parseInt parseFloat ev evs s.
  split; [apply step_messages|].
  split; [apply run_messages|].
  destruct (run_messages parseInt parseFloat evs s) as [suffix E].
  destruct (existsb resets evs); [now left | right].
  intros i m Hi. rewrite E.
  rewrite nth_error_app1; [exact Hi|].
  apply nth_error_Some. now rewrite Hi.
Qed.

(** * Further properties of the component *)

(** ** Trimming *)

Lemma trimStart_empty_iff (s : string) :
  trimStart s = "" <-> all_space s = true.
Proof.
  induction s as [|c s IH]; simpl; [easy|].
  destruct (isWhiteSpace c); simpl; [exact IH | easy].
Qed.

Lemma trimEnd_empty_iff (s : string) :
  trimEnd s = "" <-> all_space s = true.
Proof.
  induction s as [|c s IH]; simpl; [easy|].
  destruct (trimEnd s) as [|k kept].
  - destruct (isWhiteSpace c); simpl; [|easy].
    split; intros _; [now apply IH | reflexivity].
  - split; [easy|]. intros H.
    apply andb_true_iff in H. destruct H as [_ H].
    apply IH in H. discriminate.
Qed.

Lemma trimStart_fixed (s : string) :
  starts_with_space s = false -> trimStart s = s.
Proof.
  destruct s as [|c s]; simpl; [easy|]. now intros ->.
Qed.

Lemma trimEnd_no_trailing_space (s : string) :
  ends_with_space (trimEnd s) = false.
Proof.
  induction s as [|c s IH]; simpl; [reflexivity|].
  destruct (trimEnd s) as [|k kept].
  - destruct (isWhiteSpace c) eqn:E; simpl; [reflexivity | exact E].
  - exact IH.
Qed.

Lemma trimEnd_fixed (s : string) :
  ends_with_space s = false -> trimEnd s = s.
Proof.
  induction s as [|c s IH]; [reflexivity|].
  destruct s as [|k s'].
  - simpl. now intros ->.
  - intros H. change (ends_with_space (String k s') = false) in H.
    specialize (IH H).
    change (trimEnd (String c (String k s')))
      with (match trimEnd (String k s') with
            | EmptyString =>
                if isWhiteSpace c then EmptyString else String c EmptyString
            | kept => String c kept
            end).
    now rewrite IH.
Qed.

Lemma trim_no_trailing_space (s : string) :
  ends_with_space (trim s) = false.
Proof. apply trimEnd_no_trailing_space. Qed.

Lemma trim_starts_with_space (s : string) :
  starts_with_space (trim s) = false.
Proof.
  destruct (trim s) as [|c rest] eqn:E; [reflexivity|].
  exact (trim_no_leading_space _ _ _ E).
Qed.

(** [trim] removes all there is to remove: its result neither starts
    nor ends with white space, trimming it again changes nothing, and it
    is empty exactly for the texts made of white space only. *)
Lemma trim_idempotent :
  forall s : string,
    starts_with_space (trim s) = false
    /\ ends_with_space (trim s) = false
    /\ trim (trim s) = trim s
    /\ (trim s = "" <-> all_space s = true).
Proof.
  intros s.
  split; [apply trim_starts_with_space|].
  split; [apply trim_no_trailing_space|].
  split.
  - unfold trim at 1.
    rewrite (trimStart_fixed _ (trim_starts_with_space s)).
    apply trimEnd_fixed, trim_no_trailing_space.
  - unfold trim. rewrite trimEnd_empty_iff.
    induction s as [|c s IH]; simpl; [easy|].
    destruct (isWhiteSpace c) eqn:E; simpl; [exact IH|].
    rewrite E. simpl. easy.
Qed.

(** ** The guard of [sendMessage] and the submit button *)

Lemma submit_disabled_guard (s : State) :
  submit_disabled s = negb (truthy (trim (input s))) || isLoading s.
Proof. unfold submit_disabled. apply orb_comm. Qed.

Lemma sendMessage_noop_iff (s : State) :
  sendMessage s = (s, []) <-> submit_disabled s = true.
Proof.
  unfold sendMessage. rewrite <- submit_disabled_guard.
  destruct (submit_disabled s); split; easy.
Qed.

(** X1.  The submit button and the guard of [sendMessage] agree, and both
    turn on white space: the button is disabled exactly when a request is
    in flight or the input is made of white space only; [sendMessage]
    returns without a trace exactly when the button is disabled, and
    otherwise dispatches its one request and raises [isLoading]. *)
Theorem submit_disabled_iff_sendMessage_noop :
  forall s : State,
    submit_disabled s = isLoading s || all_space (input s)
    /\ (sendMessage s = (s, []) <-> submit_disabled s = true)
    /\ (if submit_disabled s then snd (sendMessage s) = []
        else length (filter is_post (snd (sendMessage s))) = 1
             /\ isLoading (fst (sendMessage s)) = true).
Proof.
  intros s. split; [|split].
  - unfold submit_disabled. f_equal.
    destruct (trim_idempotent (input s)) as (_ & _ & _ & H).
    destruct (all_space (input s)).
    + destruct H as [_ H]. now rewrite (H eq_refl).
    + destruct (trim (input s)); [|reflexivity].
      destruct H as [H _]. now specialize (H eq_refl).
  - apply sendMessage_noop_iff.
  - unfold sendMessage. rewrite <- submit_disabled_guard.
    destruct (submit_disabled s); now cbn.
Qed.

(** X2.  A second submit is refused only once the component has
    re-rendered.  Handled by the closure of the render that follows the
    first submit, it changes nothing and issues nothing: the first one was
    refused and the state is the same, or it was accepted and left the
    input empty and [isLoading] raised.  Handled by the closure of the same
    render as the first, it reads the same [input] and [isLoading], so
    after an accepted submit it passes the guard again, queues the same
    user message once more and dispatches the same request a second time:
    two requests are then in flight. *)
Theorem sendMessage_twice :
  forall (parseInt parseFloat : string -> float) (s : State),
    let s1 := fst (sendMessage_in s s) in
    let userMessage :=
      {| role := role_user; content := trim (input s); modelName := None |} in
    sendMessage_in s s = sendMessage s
    /\ sendMessage_in s1 s1 = (s1, [])
    /\ (submit_disabled s = true
        \/ (input s1 = "" /\ error s1 = None /\ submit_disabled s1 = true))
    /\ sendMessage_in s s1
       = (if submit_disabled s then (s, [])
          else (setMessages (fun prev => prev ++ [userMessage]) s1,
                snd (sendMessage s)))
    /\ (submit_disabled s = true
        \/ messages (fst (sendMessage_in s s1))
           = messages s ++ [userMessage; userMessage])
    /\ run_items parseInt parseFloat [Handle Submitted; Handle Submitted] s s 0
       = Some (s, fst (sendMessage_in s s1),
               if submit_disabled s then 0 else 2).
Proof.
  intros parseInt parseFloat s.
  cbn [run_items step_in].
  unfold sendMessage.
  rewrite <- !submit_disabled_guard.
  assert (G : forall c,
             sendMessage_in s c
             = if submit_disabled s then (c, [])
               else
                 (setIsLoading true
                    (setMessages
                       (fun prev =>
                          prev ++ [{| role := role_user;
                                      content := trim (input s);
                                      modelName := None |}])
                       (setError None (setInput "" c))),
                  [HttpPost "/api/chat"
                     {| req_message := trim (input s);
                        req_sessionId := sessionId s;
                        req_options := settings s;
                        req_timeout := 60000 |}])).
  { intros c. unfold sendMessage_in.
    rewrite <- submit_disabled_guard. reflexivity. }
  rewrite !G.
  destruct (submit_disabled s) eqn:D; cbn [fst snd].
  - rewrite G, D.
    split; [reflexivity|].
    split; [reflexivity|].
    split; [now left|].
    split; [reflexivity|].
    split; [now left|].
    reflexivity.
  - split; [reflexivity|].
    split.
    { unfold sendMessage_in. cbn [isLoading setIsLoading].
      now rewrite orb_true_r. }
    split; [right; repeat split|].
    split; [reflexivity|].
    split; [right; cbn; now rewrite <- app_assoc|].
    reflexivity.
Qed.

(** ** The health check *)

Lemma prefix_append (p x : string) : String.prefix p (p ++ x) = true.
Proof.
  induction p as [|a p IH]; simpl; [now destruct x|].
  now destruct (ascii_dec a a).
Qed.

Lemma errorMessage_prefix (err : AxiosError) :
  String.prefix "Failed to get response. " (errorMessage err) = true.
Proof.
  unfold errorMessage.
  destruct (code_is err "ECONNABORTED"); [apply prefix_append|].
  destruct (status_is err 429); [apply prefix_append|].
  destruct (truthy_opt (response_data_message err)); [apply prefix_append|].
  destruct (no_response err); apply prefix_append.
Qed.

(** X3.  [checkHealth] issues one [GET /api/health] and changes nothing;
    when that request settles, only [error] changes: to nothing when it is
    fulfilled, to the fixed text when it is rejected, a text on which the
    banner shows and which no failed send produces.  Messages, the loading
    flag, the session id, the input and the settings stay, and no further
    request is issued. *)
Theorem checkHealth_settled_sets_error_only :
  forall (r : Settled unit) (err : AxiosError) (s : State),
    checkHealth s = (s, [HttpGet "/api/health"])
    /\ fst (checkHealth_settled r s)
       = setError
           (match r with
            | Fulfilled _ => None
            | Rejected _ =>
                Some "Unable to connect to server. Please check if the backend is running."
            end)
           s
    /\ existsb is_http (snd (checkHealth_settled r s)) = false
    /\ error_banner (fst (checkHealth_settled r s))
       = error (fst (checkHealth_settled r s))
    /\ error (fst (checkHealth_settled r s)) <> Some (errorMessage err).
Proof.
  intros r err s.
  split; [reflexivity|].
  split; [now destruct r|].
  split; [now destruct r|].
  split; [now destruct r|].
  destruct r as [u | e]; cbn; [discriminate|].
  intros [= E].
  pose proof (errorMessage_prefix err) as P.
  rewrite <- E in P. discriminate.
Qed.

(** ** What the conversation is made of *)

Lemma step_well_formed (parseInt parseFloat : string -> float)
    (ev : Event) (s : State) :
  forallb well_formed (messages s) = true ->
  forallb well_formed (messages (fst (step parseInt parseFloat ev s))) = true.
Proof.
  intros H.
  destruct ev as [ | r | v | | r | c | r now | | | | v | v | v ]; cbn;
    try exact H.
  - now destruct r.
  - unfold sendMessage.
    destruct (negb (truthy (trim (input s)))) eqn:T; cbn; [exact H|].
    destruct (isLoading s); cbn; [exact H|].
    rewrite forallb_app, H. cbn.
    unfold well_formed. cbn.
    apply negb_false_iff in T. rewrite T.
    now rewrite trim_starts_with_space, trim_no_trailing_space.
  - destruct r as [d | err]; cbn; rewrite forallb_app, H; cbn.
    + reflexivity.
    + unfold well_formed. cbn [role content modelName is_none].
      now rewrite errorMessage_prefix.
  - now destruct c.
  - now destruct r.
Qed.

(** X4.  The handlers keep the conversation well formed: along any
    sequence of events every user message holds a non-empty text without
    white space at either end and every error message a text that starts
    with "Failed to get response. "; neither names a model, so only a
    reply of the server can. *)
Theorem run_well_formed :
  forall (parseInt parseFloat : string -> float)
         (evs : list Event) (s : State),
    forallb well_formed (messages s) = true ->
    forallb well_formed (messages (run parseInt parseFloat evs s)) = true.
Proof.
  intros parseInt parseFloat evs.
  induction evs as [|ev evs IH]; intros s H; [exact H|].
  cbn [run]. apply IH. now apply step_well_formed.
Qed.

Lemma run_well_formed_witness :
  forallb well_formed
    (messages
       (run (fun _ => 512%float) (fun _ => 0.7%float)
          [ Mounted; InputSet "  Hello "; Submitted;
            HealthSettled (Fulfilled tt);
            ChatSettled (Rejected (error_of rateLimited));
            InputSet "Explain my rights"; Submitted;
            ChatSettled (Fulfilled reply_hi) ]
          (init 1730520000000)))
  = true.
Proof.
  apply (run_well_formed (fun _ => 512%float) (fun _ => 0.7%float)).
  reflexivity.
Defined.

(** ** One request in flight, one reply per user message *)

(** On the render of the state itself, the closures are the handlers of
    [step]. *)
Lemma step_in_same (parseInt parseFloat : string -> float)
    (ev : Event) (s : State) :
  step_in parseInt parseFloat s ev s = step parseInt parseFloat ev s.
Proof. destruct ev; reflexivity. Qed.

Lemma stale_render_allowed (r c : State) : false = true -> r = c.
Proof. discriminate. Qed.

Lemma fresh_submits_handle (fresh : bool) (ev : Event) (rest : list Item) :
  fresh_submits fresh (Handle ev :: rest) = true ->
  fresh_submits false rest = true /\ (ev = Submitted -> fresh = true).
Proof.
  destruct ev; cbn; intros H; try (split; [exact H | discriminate]).
  apply andb_true_iff in H. destruct H as [H1 H2]. now split.
Qed.

Lemma step_in_in_flight (parseInt parseFloat : string -> float)
    (r : State) (ev : Event) (c : State) (n : nat) :
  n <= 1 ->
  isLoading c = Nat.eqb n 1 ->
  (ev = Submitted -> r = c) ->
  let s' := fst (step_in parseInt parseFloat r ev c) in
  let posted :=
    length (filter is_post (snd (step_in parseInt parseFloat r ev c))) in
  match ev with
  | ChatSettled _ => isLoading s' = false
  | _ => n + posted <= 1 /\ isLoading s' = Nat.eqb (n + posted) 1
  end.
Proof.
  intros Hn Hs Hrc.
  destruct ev as [ | x | v | | x | k | x now | | | | v | v | v ]; cbn;
    rewrite ?Nat.add_0_r; try (split; assumption).
  - destruct x; cbn; rewrite Nat.add_0_r; split; assumption.
  - rewrite (Hrc eq_refl). unfold sendMessage_in.
    destruct (negb (truthy (trim (input c)))); cbn;
      [rewrite Nat.add_0_r; split; assumption|].
    destruct (isLoading c) eqn:L; cbn.
    + rewrite Nat.add_0_r, L. split; assumption.
    + symmetry in Hs. apply Nat.eqb_neq in Hs.
      assert (n = 0) as -> by lia. split; [lia | reflexivity].
  - now destruct x.
  - destruct k; cbn; rewrite Nat.add_0_r; split; assumption.
  - destruct x; cbn; rewrite Nat.add_0_r; split; assumption.
Qed.

Lemma run_items_in_flight_inv (parseInt parseFloat : string -> float)
    (items : list Item) :
  forall (fresh : bool) (r c r' c' : State) (n n' : nat),
    n <= 1 ->
    isLoading c = Nat.eqb n 1 ->
    (fresh = true -> r = c) ->
    fresh_submits fresh items = true ->
    run_items parseInt parseFloat items r c n = Some (r', c', n') ->
    n' <= 1 /\ isLoading c' = Nat.eqb n' 1.
Proof.
  induction items as [|[|ev] items IH];
    intros fresh r c r' c' n n' Hn Hs Hfresh Hf Hrun.
  - cbn in Hrun. injection Hrun as <- <- <-. auto.
  - cbn [run_items fresh_submits] in *.
    exact (IH true c c r' c' n n' Hn Hs (fun _ => eq_refl) Hf Hrun).
  - destruct (fresh_submits_handle fresh ev items Hf) as [Hrest Hsub].
    assert (Hrc : ev = Submitted -> r = c)
      by (intros E; apply Hfresh, Hsub, E).
    pose proof (step_in_in_flight parseInt parseFloat r ev c n Hn Hs Hrc) as St.
    cbv zeta in St. cbn [run_items] in Hrun. cbv zeta in Hrun.
    destruct ev as [ | x | v | | x | k | x now | | | | v | v | v ];
      try exact (IH false _ _ _ _ _ _ (proj1 St) (proj2 St)
                   (stale_render_allowed _ _) Hrest Hrun).
    destruct n as [|m]; [discriminate|].
    assert (m = 0) as -> by lia.
    exact (IH false _ _ _ _ _ _ (Nat.le_0_l 1) St
             (stale_render_allowed _ _) Hrest Hrun).
Qed.

(** X5.  As long as every submit is handled after a re-render, at most one
    chat request is in flight, and [isLoading] says whether one is: along
    any sequence of re-renders and events in which each submit comes right
    after a re-render and a chat request settles only when one is in
    flight, started with [isLoading] in step with the count, the count
    stays at most one and [isLoading] is true exactly when it is one.  The
    other events may be handled by closures of a stale render. *)
Theorem run_items_at_most_one_in_flight :
  forall (parseInt parseFloat : string -> float)
         (items : list Item) (r c r' c' : State) (n n' : nat),
    n <= 1 ->
    isLoading c = Nat.eqb n 1 ->
    fresh_submits false items = true ->
    run_items parseInt parseFloat items r c n = Some (r', c', n') ->
    n' <= 1 /\ isLoading c' = Nat.eqb n' 1.
Proof.
  intros parseInt parseFloat items r c r' c' n n' Hn Hs Hf Hrun.
  apply (run_items_in_flight_inv parseInt parseFloat items
           false r c r' c' n n'); try assumption.
  discriminate.
Qed.

Lemma run_items_at_most_one_in_flight_witness :
  match
    run_items (fun _ => 512%float) (fun _ => 0.7%float) two_sends
      (init 1730520000000) (init 1730520000000) 0
  with
  | Some (_, c', n') => n' <= 1 /\ isLoading c' = Nat.eqb n' 1
  | None => False
  end.
Proof.
  destruct
    (run_items (fun _ => 512%float) (fun _ => 0.7%float) two_sends
       (init 1730520000000) (init 1730520000000) 0)
    as [[[r' c'] n']|] eqn:E.
  - apply (run_items_at_most_one_in_flight
             (fun _ => 512%float) (fun _ => 0.7%float) two_sends
             (init 1730520000000) (init 1730520000000) r' c' 0 n').
    + lia.
    + reflexivity.
    + reflexivity.
    + exact E.
  - vm_compute in E. discriminate.
Defined.

Lemma awaiting_reply_snoc (ms : list Message) (b : bool) (m : Message) :
  awaiting_reply ms = Some b ->
  is_user m = negb b ->
  awaiting_reply (ms ++ [m]) = Some (negb b).
Proof.
  revert b.
  assert (P : forall l x,
             (forall b, awaiting_reply l = Some b -> is_user m = negb b ->
                        awaiting_reply (l ++ [m]) = Some (negb b))
             /\ (forall b, awaiting_reply (x :: l) = Some b ->
                           is_user m = negb b ->
                           awaiting_reply ((x :: l) ++ [m]) = Some (negb b))).
  { induction l as [|y l IH]; intros x.
    - split; intros b; cbn.
      + intros [= <-] Hm. cbn in Hm. now rewrite Hm.
      + destruct (is_user x); [|discriminate].
        intros [= <-] Hm. cbn in Hm. now rewrite Hm.
    - destruct (IH y) as [IH1 IH2]. split; [exact IH2|].
      intros b Hb Hm.
      change ((x :: y :: l) ++ [m]) with (x :: y :: (l ++ [m])).
      cbn [awaiting_reply] in *.
      destruct (is_user x); [|discriminate].
      destruct (is_user y); [discriminate|].
      now apply IH1. }
  destruct ms as [|x l]; intros b.
  - intros [= <-] Hm. cbn in *. now rewrite Hm.
  - apply (P l x).
Qed.

Lemma step_in_turns (parseInt parseFloat : string -> float)
    (r : State) (ev : Event) (c : State) :
  resets ev = false ->
  awaiting_reply (messages c) = Some (isLoading c) ->
  (ev = Submitted -> r = c) ->
  let s' := fst (step_in parseInt parseFloat r ev c) in
  match ev with
  | ChatSettled _ =>
      isLoading c = true -> awaiting_reply (messages s') = Some (isLoading s')
  | _ => awaiting_reply (messages s') = Some (isLoading s')
  end.
Proof.
  intros R H Hrc.
  destruct ev as [ | x | v | | x | k | x now | | | | v | v | v ]; cbn;
    try exact H.
  - now destruct x.
  - rewrite (Hrc eq_refl). unfold sendMessage_in.
    destruct (negb (truthy (trim (input c)))); cbn; [exact H|].
    destruct (isLoading c) eqn:L; cbn; [now rewrite L|].
    now apply (awaiting_reply_snoc _ false).
  - intros L. rewrite L in H.
    destruct x; cbn; now apply (awaiting_reply_snoc _ true).
  - now destruct k.
  - destruct x; [discriminate | exact H].
Qed.

Lemma run_items_turns_inv (parseInt parseFloat : string -> float)
    (items : list Item) :
  forall (fresh : bool) (r c r' c' : State) (n n' : nat),
    n <= 1 ->
    isLoading c = Nat.eqb n 1 ->
    awaiting_reply (messages c) = Some (isLoading c) ->
    (fresh = true -> r = c) ->
    fresh_submits fresh items = true ->
    existsb item_resets items = false ->
    run_items parseInt parseFloat items r c n = Some (r', c', n') ->
    awaiting_reply (messages c') = Some (isLoading c')
    /\ typing_indicator_shown c' = isLoading c'.
Proof.
  induction items as [|[|ev] items IH];
    intros fresh r c r' c' n n' Hn Hs Ht Hfresh Hf Hr Hrun.
  - cbn in Hrun. injection Hrun as <- <- <-.
    split; [exact Ht|].
    unfold typing_indicator_shown, welcome_shown.
    destruct (messages c); [|reflexivity].
    cbn in Ht. now injection Ht as <-.
  - cbn [run_items fresh_submits existsb item_resets orb] in *.
    exact (IH true c c r' c' n n' Hn Hs Ht (fun _ => eq_refl) Hf Hr Hrun).
  - cbn [existsb item_resets] in Hr.
    apply orb_false_iff in Hr. destruct Hr as [Hr1 Hr2].
    destruct (fresh_submits_handle fresh ev items Hf) as [Hrest Hsub].
    assert (Hrc : ev = Submitted -> r = c)
      by (intros E; apply Hfresh, Hsub, E).
    pose proof (step_in_in_flight parseInt parseFloat r ev c n Hn Hs Hrc) as St.
    pose proof (step_in_turns parseInt parseFloat r ev c Hr1 Ht Hrc) as Tu.
    cbv zeta in St, Tu. cbn [run_items] in Hrun. cbv zeta in Hrun.
    destruct ev as [ | x | v | | x | k | x now | | | | v | v | v ];
      try exact (IH false _ _ _ _ _ _ (proj1 St) (proj2 St) Tu
                   (stale_render_allowed _ _) Hrest Hr2 Hrun).
    destruct n as [|m]; [discriminate|].
    assert (m = 0) as -> by lia.
    exact (IH false _ _ _ _ _ _ (Nat.le_0_l 1) St (Tu Hs)
             (stale_render_allowed _ _) Hrest Hr2 Hrun).
Qed.

(** X6.  Between clears, and as long as every submit is handled after a
    re-render, the conversation is made of turns.  Along any sequence of
    re-renders and events without a fulfilled clear, in which each submit
    comes right after a re-render and a chat request settles only when
    one is in flight, a conversation of whole turns stays one: each user
    message is followed by exactly one reply, the last user message lacks
    its reply exactly while [isLoading] is true, and the typing indicator
    of a render of that state is on screen exactly then. *)
Theorem run_items_turns :
  forall (parseInt parseFloat : string -> float)
         (items : list Item) (r c r' c' : State) (n n' : nat),
    n <= 1 ->
    isLoading c = Nat.eqb n 1 ->
    awaiting_reply (messages c) = Some (isLoading c) ->
    fresh_submits false items = true ->
    existsb item_resets items = false ->
    run_items parseInt parseFloat items r c n = Some (r', c', n') ->
    awaiting_reply (messages c') = Some (isLoading c')
    /\ typing_indicator_shown c' = isLoading c'.
Proof.
  intros parseInt parseFloat items r c r' c' n n' Hn Hs Ht Hf Hr Hrun.
  apply (run_items_turns_inv parseInt parseFloat items
           false r c r' c' n n'); try assumption.
  discriminate.
Qed.

Lemma run_items_turns_witness :
  match
    run_items (fun _ => 512%float) (fun _ => 0.7%float) two_sends
      (init 1730520000000) (init 1730520000000) 0
  with
  | Some (_, c', _) =>
      awaiting_reply (messages c') = Some (isLoading c')
      /\ typing_indicator_shown c' = isLoading c'
  | None => False
  end.
Proof.
  destruct
    (run_items (fun _ => 512%float) (fun _ => 0.7%float) two_sends
       (init 1730520000000) (init 1730520000000) 0)
    as [[[r' c'] n']|] eqn:E.
  - apply (run_items_turns
             (fun _ => 512%float) (fun _ => 0.7%float) two_sends
             (init 1730520000000) (init 1730520000000) r' c' 0 n').
    + lia.
    + reflexivity.
    + reflexivity.
    + reflexivity.
    + reflexivity.
    + exact E.
  - vm_compute in E. discriminate.
Defined.

(** ** Requests *)

Lemma step_requests (parseInt parseFloat : string -> float)
    (ev : Event) (s : State) :
  length (filter is_http (snd (step parseInt parseFloat ev s)))
  <= if may_request ev then 1 else 0.
Proof.
  destruct ev as [ | r | v | | r | c | r now | | | | v | v | v ]; cbn;
    try lia.
  - destruct r; cbn; lia.
  - unfold sendMessage.
    destruct (negb (truthy (trim (input s))) || isLoading s); cbn; lia.
  - destruct r; cbn; lia.
  - destruct c; cbn; lia.
  - destruct r; cbn; lia.
Qed.

(** X7.  No request is issued in answer to a request: along any sequence
    of events there are at most as many requests as mounts, submits and
    confirmed clears, so a settled request, fulfilled or rejected, is
    never retried or followed up, and typing, the sliders and the banner
    issue none. *)
Theorem run_effects_requests :
  forall (parseInt parseFloat : string -> float)
         (evs : list Event) (s : State),
    length (filter is_http (run_effects parseInt parseFloat evs s))
    <= length (filter may_request evs).
Proof.
  intros parseInt parseFloat evs.
  induction evs as [|ev evs IH]; intros s; cbn [run_effects filter];
    [cbn; lia|].
  rewrite filter_app, length_app.
  pose proof (step_requests parseInt parseFloat ev s) as St.
  specialize (IH (fst (step parseInt parseFloat ev s))).
  destruct (may_request ev); cbn [length]; lia.
Qed.

(** ** Clearing while a request is in flight *)

(** X8.  [clearChat] does not look at [isLoading], and the continuation of
    [sendMessage] does not look at the session id.  So a clear confirmed
    and fulfilled while a send is in flight deletes the session the send
    went to, empties the conversation with [isLoading] still raised (the
    welcome screen shows, the typing indicator does not), and the reply
    that arrives later becomes the only message of the new session's
    conversation, a reply with no user message before it. *)
Theorem reply_after_clear_joins_new_conversation :
  forall (r : Settled ChatData) (now : Z) (s : State),
    submit_disabled s = false ->
    let s1 := fst (sendMessage s) in
    let s2 := fst (clear true (Fulfilled tt) now s1) in
    let s3 := fst (sendMessage_settled r s2) in
    snd (clearChat true s1) = [HttpDelete ("/api/chat/" ++ sessionId s)]
    /\ (messages s2 = [] /\ isLoading s2 = true
        /\ welcome_shown s2 = true /\ typing_indicator_shown s2 = false)
    /\ sessionId s3 = newSessionId now
    /\ isLoading s3 = false
    /\ messages s3
       = [match r with
          | Fulfilled d =>
              {| role := role_assistant; content := data_response d;
                 modelName := data_modelName d |}
          | Rejected err =>
              {| role := role_error; content := errorMessage err;
                 modelName := None |}
          end]
    /\ awaiting_reply (messages s3) = None.
Proof.
  intros r now s D.
  unfold sendMessage. rewrite <- submit_disabled_guard, D.
  destruct r; cbn; repeat split.
Qed.

Lemma reply_after_clear_joins_new_conversation_witness :
  let s1 := fst (sendMessage typed_hello) in
  let s2 := fst (clear true (Fulfilled tt) 1730520060000 s1) in
  let s3 := fst (sendMessage_settled (Fulfilled reply_hi) s2) in
  snd (clearChat true s1) = [HttpDelete ("/api/chat/" ++ sessionId typed_hello)]
  /\ (messages s2 = [] /\ isLoading s2 = true
      /\ welcome_shown s2 = true /\ typing_indicator_shown s2 = false)
  /\ sessionId s3 = newSessionId 1730520060000
  /\ isLoading s3 = false
  /\ messages s3
     = [{| role := role_assistant; content := data_response reply_hi;
           modelName := data_modelName reply_hi |}]
  /\ awaiting_reply (messages s3) = None.
Proof.
  apply (reply_after_clear_joins_new_conversation
           (Fulfilled reply_hi) 1730520060000 typed_hello).
  reflexivity.
Defined.

(** X9.  A fulfilled clear resets three cells and keeps the rest: the
    settings, the input, the loading flag and the settings panel are as
    before.  Clearing again is a clear of its own: it deletes the session
    the first clear created, and leaves the state a single clear at the
    later clock reading would have left. *)
Theorem clear_twice :
  forall (now1 now2 : Z) (s : State),
    let s1 := fst (clear true (Fulfilled tt) now1 s) in
    (settings s1 = settings s /\ input s1 = input s
     /\ isLoading s1 = isLoading s /\ showSettings s1 = showSettings s)
    /\ snd (clear true (Fulfilled tt) now2 s1)
       = [HttpDelete ("/api/chat/" ++ newSessionId now1)]
    /\ fst (clear true (Fulfilled tt) now2 s1)
       = fst (clear true (Fulfilled tt) now2 s).
Proof.
  intros now1 now2 s. cbn. repeat split.
Qed.

(** ** The error banner *)

Lemma errorMessage_truthy (err : AxiosError) : truthy (errorMessage err) = true.
Proof.
  pose proof (errorMessage_prefix err) as P.
  destruct (errorMessage err); [discriminate | reflexivity].
Qed.

(** X10.  A rejected send always shows on the banner: the text is never
    empty, so the banner is rendered, with the content of the error
    message just appended.  Dismissing the banner clears [error] and
    leaves that message in the conversation. *)
Theorem rejected_send_shows_banner :
  forall (err : AxiosError) (s : State),
    let s1 := fst (sendMessage_settled (Rejected err) s) in
    let s2 := setError None s1 in
    error_banner s1 = Some (errorMessage err)
    /\ messages s1
       = messages s
         ++ [{| role := role_error; content := errorMessage err;
                modelName := None |}]
    /\ error_banner s2 = None
    /\ messages s2 = messages s1.
Proof.
  intros err s. cbn.
  unfold error_banner. cbn. rewrite errorMessage_truthy.
  repeat split.
Qed.

(** X11.  Only the first half of [sendMessage] clears [error]; the
    continuation of a fulfilled request leaves it as it finds it.  So a
    health check that is rejected while a send is in flight stays on the
    banner after the reply to that send has arrived and been appended. *)
Theorem health_failure_outlives_reply :
  forall (d : ChatData) (err : AxiosError) (s : State),
    submit_disabled s = false ->
    let s1 := fst (sendMessage s) in
    let s2 := fst (checkHealth_settled (Rejected err) s1) in
    let s3 := fst (sendMessage_settled (Fulfilled d) s2) in
    error s1 = None
    /\ error (fst (sendMessage_settled (Fulfilled d) s)) = error s
    /\ error_banner s3
       = Some "Unable to connect to server. Please check if the backend is running."
    /\ isLoading s3 = false
    /\ messages s3
       = messages s
         ++ [ {| role := role_user; content := trim (input s);
                 modelName := None |};
              {| role := role_assistant; content := data_response d;
                 modelName := data_modelName d |} ].
Proof.
  intros d err s D.
  unfold sendMessage. rewrite <- submit_disabled_guard, D. cbn.
  rewrite <- app_assoc. repeat split.
Qed.

Lemma health_failure_outlives_reply_witness :
  let s1 := fst (sendMessage typed_hello) in
  let s2 := fst (checkHealth_settled (Rejected (error_of unreachable)) s1) in
  let s3 := fst (sendMessage_settled (Fulfilled reply_hi) s2) in
  error s1 = None
  /\ error (fst (sendMessage_settled (Fulfilled reply_hi) typed_hello))
     = error typed_hello
  /\ error_banner s3
     = Some "Unable to connect to server. Please check if the backend is running."
  /\ isLoading s3 = false
  /\ messages s3
     = messages typed_hello
       ++ [ {| role := role_user; content := trim (input typed_hello);
               modelName := None |};
            {| role := role_assistant; content := data_response reply_hi;
               modelName := data_modelName reply_hi |} ].
Proof.
  apply (health_failure_outlives_reply reply_hi (error_of unreachable)
           typed_hello).
  reflexivity.
Defined.

(** ** The sliders *)

(** X12.  The three sliders are independent: changes of two different
    sliders give the same state in either order, a second change of the
    same slider overrides the first, and a change touches the settings
    only, issuing nothing. *)
Theorem onChange_sliders_commute :
  forall (parseInt parseFloat : string -> float) (a b : string) (s : State),
    let M := fun v x => fst (onChange_maxLength parseInt v x) in
    let T := fun v x => fst (onChange_temperature parseFloat v x) in
    let P := fun v x => fst (onChange_topP parseFloat v x) in
    (M a (T b s) = T b (M a s)
     /\ M a (P b s) = P b (M a s)
     /\ T a (P b s) = P b (T a s))
    /\ (M b (M a s) = M b s /\ T b (T a s) = T b s /\ P b (P a s) = P b s)
    /\ (M a s = setSettings (settings (M a s)) s
        /\ T a s = setSettings (settings (T a s)) s
        /\ P a s = setSettings (settings (P a s)) s)
    /\ (snd (onChange_maxLength parseInt a s) = []
        /\ snd (onChange_temperature parseFloat a s) = []
        /\ snd (onChange_topP parseFloat a s) = []).
Proof.
  intros parseInt parseFloat a b s. cbn. repeat split.
Qed.

(** ** The suggestion buttons *)

Lemma suggestions_fixed_by_trim (text : string) :
  In text suggestions -> trim text = text /\ truthy text = true.
Proof.
  intros [<- | [<- | [<- | []]]]; split; reflexivity.
Qed.

(** X13.  Each suggestion of the welcome screen is ready to send: with
    nothing in flight, a click on it enables the submit button, and the
    submit that follows posts the suggestion as it is written, under the
    current session id and settings, and appends it as the user message. *)
Theorem suggestion_then_submit :
  forall (text : string) (s : State),
    In text suggestions ->
    isLoading s = false ->
    let s1 := setInput text s in
    submit_disabled s1 = false
    /\ sendMessage s1
       = (setIsLoading true
            (setMessages
               (fun prev =>
                  prev ++ [{| role := role_user; content := text;
                              modelName := None |}])
               (setError None (setInput "" s))),
          [HttpPost "/api/chat"
             {| req_message := text; req_sessionId := sessionId s;
                req_options := settings s; req_timeout := 60000 |}]).
Proof.
  intros text s Hin Hidle.
  destruct (suggestions_fixed_by_trim text Hin) as [Htrim Htruthy].
  assert (D : submit_disabled (setInput text s) = false).
  { unfold submit_disabled, setInput. cbn [input isLoading].
    now rewrite Hidle, Htrim, Htruthy. }
  split; [exact D|].
  unfold sendMessage. rewrite <- submit_disabled_guard, D.
  cbv [setInput setError setMessages setIsLoading messages input isLoading
         sessionId showSettings settings error].
  rewrite Htrim. reflexivity.
Qed.

Lemma suggestion_then_submit_witness :
  let s := init 1730520000000 in
  let s1 := setInput "Explain my rights" s in
  submit_disabled s1 = false
  /\ sendMessage s1
     = (setIsLoading true
          (setMessages
             (fun prev =>
                prev ++ [{| role := role_user; content := "Explain my rights";
                            modelName := None |}])
             (setError None (setInput "" s))),
        [HttpPost "/api/chat"
           {| req_message := "Explain my rights"; req_sessionId := sessionId s;
              req_options := settings s; req_timeout := 60000 |}]).
Proof.
  apply (suggestion_then_submit "Explain my rights" (init 1730520000000)).
  - right; left; reflexivity.
  - reflexivity.
Defined.

(** ** What is shown and sent of the settings and the model *)

(** X14.  The role test around the model name hides nothing: under every
    message the handlers can have appended, the name shown is the name
    the message carries, unless that is the empty string. *)
Theorem model_tag_of_well_formed :
  forall m : Message,
    well_formed m = true ->
    model_tag m = if truthy_opt (modelName m) then modelName m else None.
Proof.
  intros [r c n]. unfold well_formed, model_tag. cbn.
  destruct r; [|reflexivity|].
  - intros H. apply andb_true_iff in H. destruct H as [_ H].
    now destruct n.
  - intros H. apply andb_true_iff in H. destruct H as [_ H].
    now destruct n.
Qed.

Lemma model_tag_of_well_formed_witness :
  model_tag {| role := role_assistant; content := "Hi there";
               modelName := Some "legal-v1" |}
  = Some "legal-v1".
Proof.
  apply (model_tag_of_well_formed
           {| role := role_assistant; content := "Hi there";
              modelName := Some "legal-v1" |}).
  reflexivity.
Defined.

(** X15.  The sliders act on the next send and on nothing else of it: a
    patch of the settings neither enables nor disables the submit button,
    and a send that follows carries the patched settings as parsed, with
    the message and the session id it would have carried without it. *)
Theorem set_patch_then_sendMessage :
  forall (parseInt parseFloat : string -> float) (p : Patch) (s : State),
    let s1 := set_patch parseInt parseFloat p s in
    submit_disabled s1 = submit_disabled s
    /\ messages (fst (sendMessage s1)) = messages (fst (sendMessage s))
    /\ snd (sendMessage s1)
       = if submit_disabled s then []
         else [HttpPost "/api/chat"
                 {| req_message := trim (input s);
                    req_sessionId := sessionId s;
                    req_options := get_settings s1;
                    req_timeout := 60000 |}].
Proof.
  intros parseInt parseFloat [pm pt pp] [ms inp busy sid shown st e].
  cbv zeta. unfold sendMessage, submit_disabled.
  destruct pm, pt, pp;
    cbn [set_patch on_some fst onChange_maxLength onChange_temperature
         onChange_topP setSettings input isLoading sessionId settings
         messages patch_maxLength patch_temperature patch_topP get_settings];
    rewrite (orb_comm busy);
    destruct (negb (truthy (trim inp)) || busy); repeat split.
Qed.
